(** * benningsolarvalues: the collector of app.py as a shallow embedding

    The worker of [src/app.py] polls the inverter over HTTP, turns every
    line of the semicolon-separated table into a metric (lines 172-209 of
    [do_repeat]), publishes the list to MQTT (lines 214-218), and is driven
    by the fixed-interval loop [every] (lines 141-152).

    Python floats enter only through [float(...)], the product [*] and the
    integer literals 1000 and 3600: they are kept abstract behind the class
    [PyFloat], so the statements about the parser hold for any IEEE
    behaviour.  Clock readings and the interval of [every] are exact
    integers (one common time unit).  External calls (requests.get,
    mqtt connect and publish) are inputs of the model. *)

From Stdlib Require Import String Ascii List ZArith Bool Lia.
From Stdlib Require Import Floats.
Import ListNotations.
Open Scope string_scope.
Open Scope Z_scope.

(** ** Python exceptions

    The exceptions the task can raise; all of them are subclasses of
    Python's [Exception]. *)
Inductive exn : Type :=
| IndexError                 (* v[i] with too few fields *)
| ValueError                 (* float(s) on a non-numeric string *)
| AppError (msg : string)    (* raise Error('error fetching data: ...') *)
| RequestError (name : string) (* requests exceptions other than ConnectionError *)
| PublishError (name : string) (* an exception of mqtt_client.publish *)
| ZeroDivisionError.           (* x // 0 *)

(** What a [raise] can carry in Python: an [Exception] or one of the
    [BaseException]s outside it (KeyboardInterrupt, SystemExit). *)
Inductive py_exc : Type :=
| Exception_ (e : exn)
| BaseException_ (name : string).

Inductive result (A : Type) : Type :=
| Ok (a : A)
| Err (e : exn).
Arguments Ok {A} a.
Arguments Err {A} e.

Definition bind {A B} (r : result A) (k : A -> result B) : result B :=
  match r with
  | Ok a => k a
  | Err e => Err e
  end.

Notation "x <- r ;; k" := (bind r (fun x => k))
  (at level 61, r at next level, right associativity).

(** Python's float type, as used by the parser. [pyfloat s] is [float(s)],
    [None] when it raises [ValueError]. *)
Class PyFloat (F : Type) := {
  pyfloat : string -> option F;
  pymul : F -> F -> F;
  pyint : Z -> F
}.

(** ** String helpers: [str.split], [str.splitlines], [str.strip] *)

(** [s.split(sep)] for a one-character [sep]. *)
Fixpoint split (sep : ascii) (s : string) : list string :=
  match s with
  | EmptyString => [EmptyString]
  | String c rest =>
      if Ascii.eqb c sep then EmptyString :: split sep rest
      else match split sep rest with
           | w :: ws => String c w :: ws
           | [] => [String c EmptyString]
           end
  end.

(** Line boundaries of [str.splitlines] in the range of one-byte code
    points: \n \x0b \x0c \r \x1c \x1d \x1e \x85 (\r\n counts once). *)
Definition is_line_boundary (c : ascii) : bool :=
  match nat_of_ascii c with
  | 10 | 11 | 12 | 13 | 28 | 29 | 30 | 133 => true
  | _ => false
  end%nat.

Fixpoint splitlines_aux (s : string) (acc : list ascii) : list string :=
  match s with
  | EmptyString =>
      match acc with
      | [] => []
      | _ => [string_of_list_ascii (rev acc)]
      end
  | String c rest =>
      let line := string_of_list_ascii (rev acc) in
      if Ascii.eqb c "013"%char then
        match rest with
        | String c2 r2 =>
            if Ascii.eqb c2 "010"%char then line :: splitlines_aux r2 []
            else line :: splitlines_aux rest []
        | EmptyString => [line]
        end
      else if is_line_boundary c then line :: splitlines_aux rest []
      else splitlines_aux rest (c :: acc)
  end.

(** [text.splitlines()] *)
Definition splitlines (s : string) : list string := splitlines_aux s [].

Fixpoint drop_while_char (ch : ascii) (l : list ascii) : list ascii :=
  match l with
  | c :: l' => if Ascii.eqb c ch then drop_while_char ch l' else l
  | [] => []
  end.

(** [s.strip(ch)] for a one-character [ch]. *)
Definition strip (ch : ascii) (s : string) : string :=
  string_of_list_ascii
    (rev (drop_while_char ch (rev (drop_while_char ch (list_ascii_of_string s))))).

(** [v[i]] on a list: [IndexError] out of range. *)
Definition getitem {A} (v : list A) (i : nat) : result A :=
  match nth_error v i with
  | Some x => Ok x
  | None => Err IndexError
  end.

Definition of_float {F} (o : option F) : result F :=
  match o with
  | Some x => Ok x
  | None => Err ValueError
  end.

(** ** The parser: lines 172-209 of [do_repeat] *)
Section Parser.
Context {F : Type} `{PyFloat F}.

(** The dict built at line 208. *)
Record metric : Type := mkMetric {
  id : string;
  descriptor : string;
  type_ : string;
  value : F;
  description : string;
  unit : string;
  unit_zabbix : string
}.

Definition LastSystemBackupTimestamp : string :=
  "SystemState_persistent.Global.LastSystemBackupTimestamp".
Definition LastSendProtocolTimestamp : string :=
  "SystemState_persistent.SolarPortal.LastSendProtocolTimestamp".

(** Lines 178-184: the multiplier. *)
Definition scale_value (rawvalue multiplier : string) : result F :=
  if negb (String.eqb multiplier "1.000000") then
    x <- of_float (pyfloat rawvalue) ;;
    y <- of_float (pyfloat multiplier) ;;
    Ok (pymul x y)
  else of_float (pyfloat rawvalue).

(** Lines 186-206: the unit rules, written as the sequence of
    assignments of the source; [desc] is [v[1]].  Returns
    [(unit, unit_zabbix, value)]. *)
Definition normalize_units (desc unit0 : string) (value0 : F)
  : string * string * F :=
  let '(unit1, uz1, value1) :=
    if String.eqb unit0 "mA" then ("A", "A", pymul value0 (pyint 1000))
    else (unit0, unit0, value0) in
  let uz2 := if String.eqb unit1 "kWh" then "!kWh" else uz1 in
  let '(unit3, uz3, value3) :=
    if String.eqb unit1 "h" then ("s", "s", pymul value1 (pyint 3600))
    else (unit1, uz2, value1) in
  let uz4 := if String.eqb desc LastSystemBackupTimestamp then "unixtime" else uz3 in
  let uz5 := if String.eqb desc LastSendProtocolTimestamp then "unixtime" else uz4 in
  (unit3, uz5, value3).

(** The body of the [for] loop, lines 176-208, for one line. *)
Definition parse_line (line : string) : result metric :=
  let v := split ";"%char line in
  rawvalue <- getitem v 3 ;;
  multiplier <- getitem v 5 ;;
  value0 <- scale_value rawvalue multiplier ;;
  unit0 <- getitem v 6 ;;
  desc <- getitem v 1 ;;
  let '(unit', uz, value') := normalize_units desc unit0 value0 in
  i <- getitem v 0 ;;
  t <- getitem v 2 ;;
  d <- getitem v 4 ;;
  Ok (mkMetric i desc t value' (strip "034"%char d) unit' uz).

(** The [for] loop of lines 174-209: a line that raises aborts it. *)
Fixpoint parse_lines (lines : list string) : result (list metric) :=
  match lines with
  | [] => Ok []
  | l :: ls =>
      m <- parse_line l ;;
      ms <- parse_lines ls ;;
      Ok (m :: ms)
  end.

Definition parse_body (text : string) : result (list metric) :=
  parse_lines (splitlines text).

End Parser.
Arguments metric F : clear implicits.

(** ** The worker: [mqtt_connect] and [do_repeat] *)

(** The keys of [config] the worker reads. *)
Record config_t : Type := mkConfig {
  benning_host : string;
  benning_username : string;
  benning_password : string;
  mqtt_host : string;
  mqtt_topic : string;
  repeat : Z
}.

(** What [requests.get(url, auth=auth)] does: raise [ConnectionError],
    raise another exception, or return a response. *)
Inductive http_outcome : Type :=
| HttpConnectionError
| HttpRaise (e : exn)
| HttpResponse (status_code : Z) (text : string).

(** The outside world during one call of [do_repeat]: the HTTP answer,
    whether [mqtt_client.connect] raises ([Some e]) or returns ([None]),
    whether [mqtt_client.publish] raises. *)
Record cycle_env : Type := mkEnv {
  env_http : http_outcome;
  env_connect : option exn;
  env_publish : option exn
}.

(** Observable actions, in program order. *)
Inductive event (F : Type) : Type :=
| EvLogInfo (msg : string)
| EvLogWarning (msg : string)
| EvLogError (msg : string)
| EvLogException (msg : string)
| EvHttpGet (url : string)
| EvNewClient                       (* mqtt.Client() *)
| EvConnect (host : string) (port keepalive : Z)
| EvPublish (topic : string) (payload : list (metric F))
| EvSleep (secs : Z).
Arguments EvLogInfo {F} msg.
Arguments EvLogWarning {F} msg.
Arguments EvLogError {F} msg.
Arguments EvLogException {F} msg.
Arguments EvHttpGet {F} url.
Arguments EvNewClient {F}.
Arguments EvConnect {F} host port keepalive.
Arguments EvPublish {F} topic payload.
Arguments EvSleep {F} secs.

(** The attributes of [self]: [mqtt_connected], and the number of
    [mqtt.Client()] objects made so far, standing for [self.mqtt_client]. *)
Record worker : Type := mkWorker {
  mqtt_connected : bool;
  mqtt_client : nat
}.

Section Worker.
Context {F : Type} `{PyFloat F}.
Variable config : config_t.

(** Lines 124-137.  [conn] is what [connect] does. *)
Definition mqtt_connect (conn : option exn) (w : worker)
  : worker * list (event F) :=
  let client := S (mqtt_client w) in
  let ev := [EvNewClient; EvConnect (mqtt_host config) 1883 60] in
  match conn with
  | Some _ =>
      (mkWorker false client,
       (ev ++ [EvLogError "error occurred connecting to mqtt"])%list)
  | None => (mkWorker true client, ev)
  end.

Definition url : string :=
  "http://" ++ benning_host config ++ "/getallentries.cgi?firstOid=10000&lastOid=20000".

Definition not_connected_warning : string :=
  "mqtt is not connected, trying reconnect in order to be able to publish next time".

(** Lines 154-221.  Returns the outcome of the call ([Err e] when it
    raises [e]), the new [self] and the events. *)
Definition do_repeat (env : cycle_env) (w : worker)
  : result Datatypes.unit * worker * list (event F) :=
  let ev0 := [EvLogInfo ("fetch all values from " ++ url); EvHttpGet url] in
  match env_http env with
  | HttpConnectionError =>
      (Ok tt, w, (ev0 ++ [EvLogError "received error during http fetch"])%list)
  | HttpRaise e => (Err e, w, ev0)
  | HttpResponse code text =>
      if code =? 200 then
        let lines := splitlines text in
        match parse_lines lines with
        | Err e => (Err e, w, ev0)
        | Ok allmetrics =>
            let ev1 := (ev0 ++ [EvLogInfo "processed values"])%list in
            if mqtt_connected w then
              let ev2 := (ev1 ++ [EvPublish (mqtt_topic config) allmetrics])%list in
              match env_publish env with
              | Some e => (Err e, w, ev2)
              | None => (Ok tt, w, ev2)
              end
            else
              let '(w', evc) := mqtt_connect (env_connect env) w in
              (Ok tt, w',
               (ev1 ++ [EvLogWarning not_connected_warning] ++ evc)%list)
        end
      else (Err (AppError ("error fetching data: " ++ text)), w, ev0)
  end.

End Worker.

(** ** The scheduler: [every], lines 141-152 *)
Section Every.
Context {F W E : Type}.

(** Line 152: [next_time += (time.time() - next_time) // delay * delay + delay];
    [//] is floor division, as [Z.div]; it raises for [delay = 0]. *)
Definition every_advance (delay next_time now : Z) : result Z :=
  if delay =? 0 then Err ZeroDivisionError
  else Ok (next_time + (now - next_time) / delay * delay + delay).

(** The task: it returns normally ([None]) or raises. *)
Variable task : E -> W -> option py_exc * W * list (event F).
Variable delay : Z.

(** One pass of [while True], lines 145-152.  A tick holds the world seen
    by the task, the clock read at line 145 and the clock read at line 152.
    The first component is the exception that leaves the loop, if any. *)
Definition every_iter (tick : E * Z * Z) (next_time : Z) (w : W)
  : option py_exc * Z * W * list (event F) :=
  let '(env, t_sleep, t_after) := tick in
  let ev_sleep := [EvSleep (Z.max 0 (next_time - t_sleep))] in
  let '(r, w', ev_task) := task env w in
  match r with
  | Some (BaseException_ n) =>
      (Some (BaseException_ n), next_time, w', (ev_sleep ++ ev_task)%list)
  | _ =>
      let ev_exc :=
        match r with
        | Some _ => [EvLogException "Problem while executing repetitive task."]
        | None => []
        end in
      let ev := (ev_sleep ++ ev_task ++ ev_exc)%list in
      match every_advance delay next_time t_after with
      | Ok next' => (None, next', w', ev)
      | Err e => (Some (Exception_ e), next_time, w', ev)
      end
  end.

(** The loop over a finite prefix of ticks; it stops early only when an
    exception leaves the loop. *)
Fixpoint every_loop (ticks : list (E * Z * Z)) (next_time : Z) (w : W)
  : option py_exc * Z * W * list (event F) :=
  match ticks with
  | [] => (None, next_time, w, [])
  | t :: ts =>
      match every_iter t next_time w with
      | (Some x, n', w', ev) => (Some x, n', w', ev)
      | (None, n', w', ev) =>
          let '(r, n'', w'', ev') := every_loop ts n' w' in
          (r, n'', w'', (ev ++ ev')%list)
      end
  end.

(** [every(delay, task)]: [next_time = time.time()], then the loop. *)
Definition every (t0 : Z) (ticks : list (E * Z * Z)) (w : W)
  : option py_exc * Z * W * list (event F) :=
  every_loop ticks t0 w.

End Every.

Section Main.
Context {F : Type} `{PyFloat F}.
Variable config : config_t.

(** [self.do_repeat] as the task of [every]. *)
Definition do_repeat_task (env : cycle_env) (w : worker)
  : option py_exc * worker * list (event F) :=
  let '(r, w', ev) := do_repeat config env w in
  (match r with Ok _ => None | Err e => Some (Exception_ e) end, w', ev).


End Main.

(** ** The entry point: [parse_arguments], [set_up_logging], lines 48-57,
    75-113 and 226-233 *)

Definition DEBUG : Z := 10.
Definition INFO : Z := 20.

(** What [argparse] returns: the [-d] flag and the [-c] path. *)
Record args_t : Type := mkArgs {
  debug : bool;
  config_path : string
}.

(** Lines 48-57: the global [loglevel] becomes DEBUG with [-d]. *)
Definition parse_arguments (loglevel : Z) (args : args_t) : Z * args_t :=
  (if debug args then DEBUG else loglevel, args).

(** Where [set_up_logging] sends the records: the console
    ([logging.basicConfig]) or a [SysLogHandler] on a socket. *)
Inductive log_sink : Type :=
| Console (level : Z)
| Syslog (address : string) (level : Z).

(** Lines 75-113, the choice of handler; [platform] is [sys.platform]. *)
Definition set_up_logging (loglevel : Z) (log_to_foreground : bool)
  (platform : string) : log_sink :=
  if log_to_foreground then Console loglevel
  else
    let syslog_socket :=
      if String.eqb "darwin" platform then "/var/run/syslog" else "/dev/log" in
    Syslog syslog_socket loglevel.

(** Lines 227-233, from the module-level [loglevel = logging.INFO];
    [isatty] is [sys.stdin.isatty()]. *)
Definition main_logging (args : args_t) (isatty : bool) (platform : string)
  : log_sink :=
  let '(loglevel, _) := parse_arguments INFO args in
  let log_to_foreground := true in
  let '(log_to_foreground, loglevel) :=
    if isatty then (true, if INFO <=? loglevel then INFO else loglevel)
    else (log_to_foreground, loglevel) in
  set_up_logging loglevel log_to_foreground platform.

(** ** A concrete float: primitive IEEE binary64

    [float(s)] for decimal strings [-?digits(.digits)?] whose digits form an
    integer below 2^53 and with at most 15 fractional digits: both the
    digits and the power of ten are exact doubles, so one IEEE division
    gives the correctly rounded value, as CPython does; [pyint] is exact below 2^53.  Other strings are
    outside this instance ([None]); it serves the closed examples. *)
Module Binary64.

Fixpoint digits_value (l : list ascii) (acc : Z) (frac : option nat)
  : option (Z * nat) :=
  match l with
  | [] => Some (acc, match frac with Some k => k | None => O end)
  | c :: l' =>
      if Ascii.eqb c "."%char then
        match frac with
        | None => digits_value l' acc (Some O)
        | Some _ => None
        end
      else
        let d := Z.of_nat (nat_of_ascii c) - 48 in
        if (0 <=? d) && (d <=? 9) then
          digits_value l' (acc * 10 + d) (option_map S frac)
        else None
  end.

Definition is_digit (c : ascii) : bool :=
  (48 <=? Z.of_nat (nat_of_ascii c)) && (Z.of_nat (nat_of_ascii c) <=? 57).

Definition parse_unsigned (l : list ascii) : option PrimFloat.float :=
  if negb (existsb is_digit l) then None
  else
      match digits_value l 0 None with
      | Some (m, k) =>
          if (m <? 2 ^ 53) && (Nat.leb k 15) then
            Some (PrimFloat.div (PrimFloat.of_uint63 (Uint63.of_Z m))
                    (PrimFloat.of_uint63 (Uint63.of_Z (10 ^ Z.of_nat k))))
          else None
      | None => None
      end.

Definition float_of_string (s : string) : option PrimFloat.float :=
  match list_ascii_of_string s with
  | "-"%char :: l => option_map PrimFloat.opp (parse_unsigned l)
  | l => parse_unsigned l
  end.

#[global] Instance binary64 : PyFloat PrimFloat.float := {
  pyfloat := float_of_string;
  pymul := PrimFloat.mul;
  pyint := fun z => PrimFloat.of_uint63 (Uint63.of_Z z)
}.

End Binary64.

(** ** Sample inputs *)
Module Samples.

Definition nl : string := String "010"%char EmptyString.

(** A row with unit mA, rawValue 5.0 and multiplier 1.000000. *)
Definition sample_line : string := "11;SystemState.Global.X;F;5.0;x;1.000000;mA".
Definition sample_metric : metric PrimFloat.float :=
  mkMetric "11" "SystemState.Global.X" "F" 5000%float "x" "A" "A".

(** The same row under the backup-timestamp descriptor. *)
Definition ts_mA_line : string :=
  "12;" ++ LastSystemBackupTimestamp ++ ";F;5.0;x;1.000000;mA".

(** Two well-formed rows with an empty line between them. *)
Definition blank_body : string :=
  "1;a;F;1.0;x;1.000000;V" ++ nl ++ nl ++ "2;b;F;2.0;y;1.000000;V".

Definition cfg : config_t := mkConfig "inverter" "user" "secret" "broker" "solar/values" 10.

Definition env_ok : cycle_env := mkEnv (HttpResponse 200 sample_line) None None.
Definition env_500 : cycle_env := mkEnv (HttpResponse 500 "busy") None None.

Definition idle_task (_ : Datatypes.unit) (w : Datatypes.unit)
  : option py_exc * Datatypes.unit * list (event Datatypes.unit) := (None, w, []).

End Samples.

(** ** Observations used in the statements *)

Definition is_timestamp_descriptor (d : string) : bool :=
  String.eqb d LastSystemBackupTimestamp || String.eqb d LastSendProtocolTimestamp.

Definition is_connect {F} (e : event F) : bool :=
  match e with EvConnect _ _ _ => true | _ => false end.

Definition is_publish {F} (e : event F) : bool :=
  match e with EvPublish _ _ => true | _ => false end.

Definition is_sleep {F} (e : event F) : bool :=
  match e with EvSleep _ => true | _ => false end.

Definition is_log_exception {F} (e : event F) : bool :=
  match e with EvLogException _ => true | _ => false end.

(** [sep.join(ws)]. *)
Fixpoint join (sep : ascii) (ws : list string) : string :=
  match ws with
  | [] => EmptyString
  | w :: ws' =>
      match ws' with
      | [] => w
      | _ => w ++ String sep (join sep ws')
      end
  end.

Fixpoint count_char (c : ascii) (s : string) : nat :=
  match s with
  | EmptyString => O
  | String c' s' => (if Ascii.eqb c' c then 1 else 0) + count_char c s'
  end%nat.

Definition has_no_line_boundary (l : string) : bool :=
  forallb (fun c => negb (is_line_boundary c)) (list_ascii_of_string l).

(** A body whose lines each end with the terminator [t]. *)
Fixpoint terminated_lines (t : string) (lines : list string) : string :=
  match lines with
  | [] => EmptyString
  | l :: ls => l ++ t ++ terminated_lines t ls
  end.

Definition CRLF : string := String "013"%char (String "010"%char EmptyString).
Definition LF : string := String "010"%char EmptyString.

(** A task that raises no [BaseException] outside [Exception]. *)
Definition raises_no_base_exception {F W E : Type}
  (task : E -> W -> option py_exc * W * list (event F)) : Prop :=
  forall env w, match task env w with
                | (Some (BaseException_ _), _, _) => False
                | _ => True
                end.

(** ** Properties of the parser *)
Section ParserFacts.
Context {F : Type} `{PyFloat F}.

Lemma bind_Ok {A B} (r : result A) (k : A -> result B) (b : B) :
  bind r k = Ok b -> exists a, r = Ok a /\ k a = Ok b.
Proof. destruct r as [a|e]; simpl; [eauto | discriminate]. Qed.

Lemma getitem_Ok {A} (v : list A) i a :
  getitem v i = Ok a -> nth_error v i = Some a.
Proof. unfold getitem. destruct (nth_error v i); congruence. Qed.

Lemma getitem_Some {A} (v : list A) i a :
  nth_error v i = Some a -> getitem v i = Ok a.
Proof. unfold getitem. intros ->. reflexivity. Qed.

(** A successful [parse_line] decomposed: the scaled value of fields 3
    and 5, then the unit rules on field 6 and descriptor field 1. *)
Lemma parse_line_Ok (line : string) (met : metric F) :
  parse_line line = Ok met ->
  exists r m x u,
    nth_error (split ";"%char line) 3 = Some r /\
    nth_error (split ";"%char line) 5 = Some m /\
    scale_value r m = Ok x /\
    nth_error (split ";"%char line) 6 = Some u /\
    nth_error (split ";"%char line) 1 = Some (descriptor met) /\
    normalize_units (descriptor met) u x = (unit met, unit_zabbix met, value met).
Proof.
  unfold parse_line. intros Hp.
  apply bind_Ok in Hp as [r [Hr Hp]].
  apply bind_Ok in Hp as [m [Hm Hp]].
  apply bind_Ok in Hp as [x [Hx Hp]].
  apply bind_Ok in Hp as [u [Hu Hp]].
  apply bind_Ok in Hp as [d [Hd Hp]].
  destruct (normalize_units d u x) as [[u' z'] x'] eqn:Hn.
  apply bind_Ok in Hp as [i [_ Hp]].
  apply bind_Ok in Hp as [t [_ Hp]].
  apply bind_Ok in Hp as [ds [_ Hp]].
  injection Hp as <-. cbn [descriptor unit unit_zabbix value].
  exists r, m, x, u.
  repeat split; try (apply getitem_Ok; assumption); assumption.
Qed.

Lemma scale_value_Ok (r m : string) (x : F) :
  scale_value r m = Ok x ->
  if String.eqb m "1.000000" then pyfloat r = Some x
  else exists a b, pyfloat r = Some a /\ pyfloat m = Some b /\ x = pymul a b.
Proof.
  unfold scale_value, of_float.
  destruct (String.eqb m "1.000000"); simpl.
  - destruct (pyfloat r); simpl; congruence.
  - destruct (pyfloat r) as [a|]; simpl; [|discriminate].
    destruct (pyfloat m) as [b|]; simpl; [|discriminate].
    intros Hx; injection Hx as <-. eauto.
Qed.

Lemma normalize_units_eq (d u : string) (x : F) :
  normalize_units d u x =
  (if String.eqb u "mA" then "A" else if String.eqb u "h" then "s" else u,
   if is_timestamp_descriptor d then "unixtime"
   else if String.eqb u "mA" then "A"
   else if String.eqb u "kWh" then "!kWh"
   else if String.eqb u "h" then "s" else u,
   if String.eqb u "mA" then pymul x (pyint 1000)
   else if String.eqb u "h" then pymul x (pyint 3600) else x).
Proof.
  unfold normalize_units, is_timestamp_descriptor.
  destruct (String.eqb_spec u "mA"); [subst; simpl|].
  - destruct (String.eqb d LastSystemBackupTimestamp);
      destruct (String.eqb d LastSendProtocolTimestamp); reflexivity.
  - destruct (String.eqb_spec u "kWh"); [subst; simpl|].
    + destruct (String.eqb d LastSystemBackupTimestamp);
        destruct (String.eqb d LastSendProtocolTimestamp); reflexivity.
    + destruct (String.eqb_spec u "h"); [subst; simpl|];
        destruct (String.eqb d LastSystemBackupTimestamp);
        destruct (String.eqb d LastSendProtocolTimestamp); reflexivity.
Qed.

Lemma parse_lines_Ok (ls : list string) (ms : list (metric F)) :
  parse_lines ls = Ok ms <-> Forall2 (fun l m => parse_line l = Ok m) ls ms.
Proof.
  revert ms; induction ls as [|l ls IH]; intros ms; simpl.
  - split; [intros H'; injection H' as <-; constructor|].
    intros H'; inversion H'; reflexivity.
  - split.
    + intros Hp. apply bind_Ok in Hp as [m [Hm Hp]].
      apply bind_Ok in Hp as [ms' [Hms Hp]]. injection Hp as <-.
      constructor; [assumption | apply IH; assumption].
    + intros H'. inversion H' as [|l' m ls' ms' Hm Hms]; subst.
      rewrite Hm. simpl. apply IH in Hms. rewrite Hms. reflexivity.
Qed.

Lemma parse_lines_empty_line (ls : list string) :
  In EmptyString ls -> exists e, parse_lines (F := F) ls = Err e.
Proof.
  induction ls as [|l ls IH]; simpl; [contradiction|].
  intros [Hl | Hin].
  - subst l. exists IndexError. reflexivity.
  - destruct (parse_line l) as [m|e]; simpl; [|eauto].
    destruct (IH Hin) as [e ->]. simpl. eauto.
Qed.

End ParserFacts.

(** ** Claims about the parser and the unit rules *)
Section ParserClaims.
Context {F : Type} `{PyFloat F}.

(** C1.  For every line that parses, the value is [float(v[3]) *
    float(v[5])] when [v[5]] is not the string "1.000000", and
    [float(v[3])] with no product when it is; the metric carries that
    value, times 1000 for unit mA, times 3600 for unit h. *)
Theorem C1_multiplier_value (line : string) (met : metric F) :
  parse_line line = Ok met ->
  exists r m x u,
    nth_error (split ";"%char line) 3 = Some r /\
    nth_error (split ";"%char line) 5 = Some m /\
    nth_error (split ";"%char line) 6 = Some u /\
    (if String.eqb m "1.000000" then pyfloat r = Some x
     else exists a b, pyfloat r = Some a /\ pyfloat m = Some b /\ x = pymul a b) /\
    value met = (if String.eqb u "mA" then pymul x (pyint 1000)
                 else if String.eqb u "h" then pymul x (pyint 3600) else x).
Proof.
  intros Hp.
  destruct (parse_line_Ok line met Hp) as (r & m & x & u & Hr & Hm & Hx & Hu & _ & Hn).
  exists r, m, x, u. repeat split; try assumption.
  - apply scale_value_Ok; assumption.
  - rewrite normalize_units_eq in Hn. injection Hn as _ _ <-. reflexivity.
Qed.

(** C3.  When the descriptor is one of the two timestamp descriptors the
    unitTag is "unixtime", whatever the unit rules set; the unit and the
    value are those of the unit rules for any other descriptor.  For a
    parsed line, [unit_zabbix] is then "unixtime". *)
Theorem C3_timestamp_override :
  (forall (d u : string) (x : F),
     d = LastSystemBackupTimestamp \/ d = LastSendProtocolTimestamp ->
     forall d',
       let '(u1, z1, x1) := normalize_units d u x in
       let '(u2, _, x2) := normalize_units d' u x in
       z1 = "unixtime" /\ u1 = u2 /\ x1 = x2) /\
  (forall (line : string) (met : metric F),
     parse_line line = Ok met ->
     descriptor met = LastSystemBackupTimestamp \/
     descriptor met = LastSendProtocolTimestamp ->
     unit_zabbix met = "unixtime").
Proof.
  assert (Hts : forall d, d = LastSystemBackupTimestamp \/ d = LastSendProtocolTimestamp ->
                          is_timestamp_descriptor d = true).
  { intros d [-> | ->]; reflexivity. }
  split.
  - intros d u x Hd d'. rewrite !normalize_units_eq, (Hts d Hd).
    repeat split.
  - intros line met Hp Hd.
    destruct (parse_line_Ok line met Hp) as (r & m & x & u & _ & _ & _ & _ & _ & Hn).
    rewrite normalize_units_eq, (Hts _ Hd) in Hn.
    injection Hn as _ <- _. reflexivity.
Qed.

(** C9 (amended).  The unit rules are a total function; a unit other
    than mA, kWh and h passes through with unitTag equal to the unit,
    except for the two timestamp descriptors, where unitTag is
    "unixtime"; applying the rules again to the result (same descriptor,
    new unit, new value) gives the same unit, unitTag and value. *)
Theorem C9_normalize_total_idempotent :
  (forall (d u : string) (x : F), exists r, normalize_units d u x = r) /\
  (forall (d u : string) (x : F),
     u <> "mA" -> u <> "kWh" -> u <> "h" ->
     normalize_units d u x =
       (u, if is_timestamp_descriptor d then "unixtime" else u, x)) /\
  (forall (d u u1 z1 : string) (x x1 : F),
     normalize_units d u x = (u1, z1, x1) ->
     normalize_units d u1 x1 = (u1, z1, x1)).
Proof.
  split; [eauto|split].
  - intros d u x H1 H2 H3. rewrite normalize_units_eq.
    apply String.eqb_neq in H1, H2, H3. rewrite H1, H2, H3.
    destruct (is_timestamp_descriptor d); reflexivity.
  - intros d u u1 z1 x x1 Hn. rewrite normalize_units_eq in Hn |- *.
    destruct (String.eqb_spec u "mA"); [subst; injection Hn as <- <- <-; reflexivity|].
    destruct (String.eqb_spec u "h"); [subst; injection Hn as <- <- <-; reflexivity|].
    injection Hn as <- <- <-.
    destruct (String.eqb_spec u "mA"); [contradiction|].
    destruct (String.eqb_spec u "h"); [contradiction|].
    reflexivity.
Qed.

(** C4 (amended).  The parser handles every line [splitlines] yields,
    empty or not: a parse that succeeds gives one metric per line, in
    order; it succeeds when every line parses; an empty line raises
    [IndexError] (it has one field), so a body with an empty line (two
    consecutive line breaks, or a leading one) fails to parse.  A trailing
    line break adds no line. *)
Theorem C4_every_line_parsed :
  (forall (text : string) (ms : list (metric F)),
     parse_body text = Ok ms ->
     Forall2 (fun l m => parse_line l = Ok m) (splitlines text) ms) /\
  (forall text : string,
     (forall l, In l (splitlines text) -> exists m : metric F, parse_line l = Ok m) ->
     exists ms : list (metric F), parse_body text = Ok ms) /\
  parse_line (F := F) EmptyString = Err IndexError /\
  (forall text : string,
     In EmptyString (splitlines text) -> exists e, parse_body (F := F) text = Err e).
Proof.
  unfold parse_body. split; [|split; [|split]].
  - intros text ms Hp. apply parse_lines_Ok. assumption.
  - intros text Hall. induction (splitlines text) as [|l ls IH]; simpl.
    + eauto.
    + destruct (Hall l (or_introl eq_refl)) as [m ->]. simpl.
      destruct IH as [ms ->]; [intros l' Hl'; apply Hall; right; assumption|].
      simpl. eauto.
  - reflexivity.
  - intros text Hin. apply parse_lines_empty_line. assumption.
Qed.

End ParserClaims.

(** C2 (amended).  For a parsed line whose unit field is "mA", the value is
    the scaled value times 1000 and the unit is "A"; the unitTag is "A"
    unless the descriptor is one of the two timestamp descriptors, where it
    is "unixtime".  With binary64 floats, rawValue "5.0", multiplier
    "1.000000" and unit "mA" give value 5000.0, unit "A", unitTag "A". *)
Theorem C2_mA_rule :
  (forall (F : Type) (HF : PyFloat F) (line : string) (met : metric F),
     nth_error (split ";"%char line) 6 = Some "mA" ->
     parse_line line = Ok met ->
     unit met = "A" /\
     unit_zabbix met =
       (if is_timestamp_descriptor (descriptor met) then "unixtime" else "A") /\
     exists r m x,
       nth_error (split ";"%char line) 3 = Some r /\
       nth_error (split ";"%char line) 5 = Some m /\
       scale_value r m = Ok x /\ value met = pymul x (pyint 1000)) /\
  parse_line (F := PrimFloat.float) "11;SystemState.Global.X;F;5.0;x;1.000000;mA"
  = Ok (mkMetric "11" "SystemState.Global.X" "F" 5000%float "x" "A" "A").
Proof.
  split; [|vm_compute; reflexivity].
  intros F HF line met H6 Hp.
  destruct (parse_line_Ok line met Hp) as (r & m & x & u & Hr & Hm & Hx & Hu & _ & Hn).
  rewrite H6 in Hu. injection Hu as <-.
  rewrite normalize_units_eq in Hn. simpl in Hn.
  injection Hn as <- <- <-.
  repeat split. exists r, m, x. repeat split; assumption.
Qed.

(** ** Properties of the scheduler and the worker *)
Section EveryFacts.
Context {F W E : Type}.
Variable task : E -> W -> option py_exc * W * list (event F).
Variable delay : Z.

Lemma every_advance_pos (next now : Z) :
  0 < delay ->
  exists next', every_advance delay next now = Ok next' /\
    now < next' /\ next' - delay <= now /\
    exists k, next' = next + k * delay /\ (next <= now -> 1 <= k).
Proof.
  intros Hd. unfold every_advance.
  destruct (Z.eqb_spec delay 0) as [|_]; [lia|].
  eexists; split; [reflexivity|].
  pose proof (Z.div_mod (now - next) delay ltac:(lia)) as Hdm.
  pose proof (Z.mod_pos_bound (now - next) delay Hd) as Hb.
  pose proof (Z.div_pos (now - next) delay) as Hq.
  set (q := (now - next) / delay) in *.
  set (r := (now - next) mod delay) in *.
  split; [nia|split; [nia|]].
  exists (q + 1). split; [ring|]. intros Hle. specialize (Hq ltac:(lia) Hd). lia.
Qed.

(** The loop adds to the task's events only its sleeps and its logged
    exceptions; a state invariant of the task holds along the loop. *)
Lemma every_loop_invariant (P : W -> Prop) (q : event F -> bool) :
  (forall s, q (EvSleep s) = false) ->
  (forall m, q (EvLogException m) = false) ->
  (forall env w, P w -> let '(_, w', ev) := task env w in P w' /\ filter q ev = []) ->
  forall ticks n w, P w ->
    let '(_, _, w', ev) := every_loop task delay ticks n w in
    P w' /\ filter q ev = [].
Proof.
  intros Hs Hx Ht ticks. induction ticks as [|[[env ts] ta] ticks IH]; intros n w Hw.
  - simpl. auto.
  - simpl. unfold every_iter.
    specialize (Ht env w Hw).
    destruct (task env w) as [[r w'] evt]. destruct Ht as [Hw' Hq].
    destruct r as [[e|b]|];
      [destruct (every_advance delay n ta) as [n'|e'] | |
       destruct (every_advance delay n ta) as [n'|e']];
      try (specialize (IH n' w' Hw');
           destruct (every_loop task delay ticks n' w') as [[[r'' n''] w''] ev''];
           destruct IH as [IH1 IH2]);
      (split; [assumption|]);
      repeat progress (rewrite ?filter_app; simpl; rewrite ?Hs, ?Hx, ?Hq, ?IH2; simpl);
      reflexivity.
Qed.

Lemma every_advance_Err (next now : Z) (e : exn) :
  every_advance delay next now = Err e -> delay = 0 /\ e = ZeroDivisionError.
Proof.
  unfold every_advance. destruct (Z.eqb_spec delay 0); [|discriminate].
  intros H'; injection H' as <-. auto.
Qed.

Lemma every_advance_nz (next now : Z) :
  delay <> 0 -> every_advance delay next now = Ok (next + (now - next) / delay * delay + delay).
Proof.
  unfold every_advance. destruct (Z.eqb_spec delay 0); [contradiction|reflexivity].
Qed.

(** A task that raises only [Exception]s never ends the loop; only the
    floor division of line 152 can, for [delay = 0].  With [delay <> 0]
    every tick runs, each with one sleep. *)
Lemma every_loop_outcome :
  raises_no_base_exception task ->
  (forall env w, let '(_, _, ev) := task env w in filter is_sleep ev = []) ->
  forall ticks n w,
    let '(r, _, _, ev) := every_loop task delay ticks n w in
    (r = None \/ (delay = 0 /\ r = Some (Exception_ ZeroDivisionError))) /\
    (delay <> 0 -> r = None /\ length (filter is_sleep ev) = length ticks).
Proof.
  intros Hnb Hsl ticks. induction ticks as [|[[env ts] ta] ticks IH]; intros n w.
  - simpl. auto.
  - simpl. unfold every_iter.
    specialize (Hnb env w). specialize (Hsl env w).
    destruct (task env w) as [[r w'] evt].
    assert (Hr : match r with Some (BaseException_ _) => False | _ => True end)
      by (destruct r as [[]|]; exact Hnb).
    clear Hnb.
    destruct r as [[e|b]|]; [|contradiction|];
      (destruct (every_advance delay n ta) as [n'|e'] eqn:Ha;
       [ specialize (IH n' w');
         destruct (every_loop task delay ticks n' w') as [[[r'' n''] w''] ev''];
         destruct IH as [IH1 IH2];
         split; [assumption|];
         intros Hd; destruct (IH2 Hd) as [-> IH3]; split; [reflexivity|];
         repeat progress (rewrite ?filter_app, ?length_app; simpl; rewrite ?Hsl, ?IH3);
         lia
       | apply every_advance_Err in Ha as [Hd ->];
         split; [right; auto | intros Hd'; contradiction] ]).
Qed.

End EveryFacts.

Section WorkerFacts.
Context {F : Type} `{PyFloat F}.
Variable config : config_t.

Lemma do_repeat_task_no_base :
  raises_no_base_exception (F := F) (do_repeat_task config).
Proof.
  intros env w. unfold do_repeat_task.
  destruct (do_repeat config env w) as [[[] w'] ev]; exact I.
Qed.

Lemma do_repeat_shape (env : cycle_env) (w : worker) :
  let '(_, w', ev) := do_repeat (F := F) config env w in
  ((w' = w /\ filter is_connect ev = []) \/
   (mqtt_connected w = false /\ w' = fst (mqtt_connect (F := F) config (env_connect env) w) /\
    length (filter is_connect ev) = 1%nat)) /\
  filter is_sleep ev = [].
Proof.
  unfold do_repeat.
  destruct (env_http env) as [|e|code text]; [simpl; auto..|].
  destruct (code =? 200); [|simpl; auto].
  destruct (parse_lines (splitlines text)) as [ms|e]; [|simpl; auto].
  destruct (mqtt_connected w) eqn:Hc.
  - destruct (env_publish env); simpl; rewrite ?filter_app; simpl; auto.
  - unfold mqtt_connect. destruct (env_connect env); simpl; rewrite ?filter_app; simpl; auto.
Qed.

Lemma do_repeat_task_shape (env : cycle_env) (w : worker) :
  let '(_, w', ev) := do_repeat_task (F := F) config env w in
  ((w' = w /\ filter is_connect ev = []) \/
   (mqtt_connected w = false /\ w' = fst (mqtt_connect (F := F) config (env_connect env) w) /\
    length (filter is_connect ev) = 1%nat)) /\
  filter is_sleep ev = [].
Proof.
  unfold do_repeat_task. pose proof (do_repeat_shape env w) as Hs.
  destruct (do_repeat config env w) as [[r w'] ev]. exact Hs.
Qed.

End WorkerFacts.

(** ** Claims about the scheduler and the worker *)

(** C5.  With [delay > 0], after the task returns (normally or by an
    [Exception]) line 152 moves [next_time] forward by a whole number [k]
    of intervals, [k >= 1] when the clock has reached [next_time]; the new
    [next_time] is strictly after the clock and the boundary before it is
    not: the boundaries passed during an overrun are skipped, not run. *)
Theorem C5_skip_ahead {F W E : Type}
  (task : E -> W -> option py_exc * W * list (event F)) (delay : Z)
  (env : E) (t_sleep t_after next : Z) (w : W) :
  0 < delay -> raises_no_base_exception task ->
  let '(r, next', _, _) := every_iter task delay (env, t_sleep, t_after) next w in
  r = None /\ t_after < next' /\ next' - delay <= t_after /\
  exists k, next' = next + k * delay /\ (next <= t_after -> 1 <= k).
Proof.
  intros Hd Hnb. unfold every_iter.
  specialize (Hnb env w).
  destruct (every_advance_pos delay next t_after Hd) as (n' & Ha & Hp).
  destruct (task env w) as [[r w'] evt].
  destruct r as [[e|b]|]; [|contradiction|]; rewrite Ha; split; auto.
Qed.

Section WorkerClaims.
Context {F : Type} `{PyFloat F}.
Variable config : config_t.

(** C6.  What [do_repeat] raises (parse errors included) never ends
    [every]: the loop can only stop on the floor division of line 152
    with [repeat = 0]; with [repeat <> 0] it runs every tick, and a tick
    whose task raised logs the exception and goes on. *)
Theorem C6_task_errors_contained (t0 : Z) (ticks : list (cycle_env * Z * Z)) (w : worker) :
  (let '(r, _, _, ev) := every (do_repeat_task (F := F) config) (repeat config) t0 ticks w in
   (r = None \/ (repeat config = 0 /\ r = Some (Exception_ ZeroDivisionError))) /\
   (repeat config <> 0 -> r = None /\ length (filter is_sleep ev) = length ticks)) /\
  (forall env ts ta next w1 e,
     repeat config <> 0 ->
     (let '(r, _, _) := do_repeat (F := F) config env w1 in r = Err e) ->
     let '(r', _, _, ev) :=
       every_iter (do_repeat_task (F := F) config) (repeat config) (env, ts, ta) next w1 in
     r' = None /\ filter is_log_exception ev <> []).
Proof.
  split.
  - unfold every. apply every_loop_outcome.
    + apply do_repeat_task_no_base.
    + intros env w1. pose proof (do_repeat_task_shape config env w1) as Hs.
      destruct (do_repeat_task config env w1) as [[r w'] ev]. apply Hs.
  - intros env ts ta next w1 e Hd Hr. unfold every_iter, do_repeat_task.
    destruct (do_repeat config env w1) as [[r w'] ev]. subst r.
    rewrite (every_advance_nz _ _ _ Hd). split; [reflexivity|].
    rewrite !filter_app. simpl. destruct (filter is_log_exception ev); discriminate.
Qed.

(** C7 (amended).  On a status other than 200 [do_repeat] raises
    [Error('error fetching data: ' + text)]; [every] catches it (it is an
    [Exception]), logs it and goes on with the next tick. *)
Theorem C7_non200_caught (env : cycle_env) (w : worker) (code : Z) (text : string)
  (ts ta next : Z) :
  env_http env = HttpResponse code text -> code <> 200 -> repeat config <> 0 ->
  (let '(r, w', _) := do_repeat (F := F) config env w in
   r = Err (AppError ("error fetching data: " ++ text)) /\ w' = w) /\
  (let '(r, _, w', ev) :=
     every_iter (do_repeat_task (F := F) config) (repeat config) (env, ts, ta) next w in
   r = None /\ w' = w /\ In (EvLogException "Problem while executing repetitive task.") ev).
Proof.
  intros Hh Hc Hd.
  assert (Hr : do_repeat (F := F) config env w =
               (Err (AppError ("error fetching data: " ++ text)), w,
                [EvLogInfo ("fetch all values from " ++ url config); EvHttpGet (url config)])).
  { unfold do_repeat. rewrite Hh. apply Z.eqb_neq in Hc. rewrite Hc. reflexivity. }
  split.
  - rewrite Hr. auto.
  - unfold every_iter, do_repeat_task. rewrite Hr, (every_advance_nz _ _ _ Hd).
    repeat split. apply in_or_app. right. apply in_or_app. right. left. reflexivity.
Qed.

(** C8.  When the fetch returns 200 and the body parses but
    [mqtt_connected] is false, [do_repeat] returns normally, publishes
    nothing, logs the warning and runs the connect sequence exactly once;
    [self] becomes what that connect makes it. *)
Theorem C8_publish_skip (env : cycle_env) (w : worker) (text : string)
  (ms : list (metric F)) :
  env_http env = HttpResponse 200 text -> parse_body text = Ok ms ->
  mqtt_connected w = false ->
  let '(r, w', ev) := do_repeat config env w in
  r = Ok tt /\ filter is_publish ev = [] /\
  In (EvLogWarning not_connected_warning) ev /\
  length (filter is_connect ev) = 1%nat /\
  w' = fst (mqtt_connect (F := F) config (env_connect env) w).
Proof.
  intros Hh Hp Hc. unfold parse_body in Hp. unfold do_repeat.
  rewrite Hh. simpl (200 =? 200). rewrite Hp, Hc.
  unfold mqtt_connect.
  destruct (env_connect env); simpl; rewrite ?filter_app; simpl;
    repeat split; auto 10.
Qed.

(** C10.  [mqtt_connected] is set only by [mqtt_connect]: true when
    [connect] returns, false when it raises.  A call of [do_repeat] leaves
    [self] as it was, or (only when the flag is false) replaces it by the
    result of one connect sequence; so a connect is attempted only while
    the flag is false, and once the flag is true it stays true along the
    whole loop, whatever [publish] does. *)
Theorem C10_connected_flag :
  (forall c w, mqtt_connected (fst (mqtt_connect (F := F) config c w)) =
               match c with None => true | Some _ => false end) /\
  (forall env w,
     let '(_, w', ev) := do_repeat (F := F) config env w in
     (w' = w \/
      (mqtt_connected w = false /\ w' = fst (mqtt_connect (F := F) config (env_connect env) w))) /\
     (filter is_connect ev <> [] -> mqtt_connected w = false)) /\
  (forall ticks next w,
     mqtt_connected w = true ->
     let '(_, _, w', ev) := every_loop (do_repeat_task (F := F) config) (repeat config) ticks next w in
     mqtt_connected w' = true /\ filter is_connect ev = []).
Proof.
  split; [|split].
  - intros [e|] w; reflexivity.
  - intros env w. pose proof (do_repeat_shape config env w) as Hs.
    destruct (do_repeat config env w) as [[r w'] ev].
    destruct Hs as [[[-> Hq] | (Hc & -> & Hq)] _].
    + split; [left; reflexivity|]. intros Hne. contradiction.
    + split; [right; auto | intros _; exact Hc].
  - intros ticks next w Hw.
    apply (every_loop_invariant (do_repeat_task config) (repeat config)
             (fun w0 => mqtt_connected w0 = true) is_connect);
      [reflexivity | reflexivity | | exact Hw].
    intros env w0 Hw0. pose proof (do_repeat_task_shape config env w0) as Hs.
    destruct (do_repeat_task config env w0) as [[r w'] ev].
    destruct Hs as [[[-> Hq] | (Hc & _)] _]; [auto | congruence].
Qed.

End WorkerClaims.

(** ** Witnesses and counterexamples *)
Module Checks.
Import Samples.

(** C1 on the sample row. *)
Lemma C1_witness :
  parse_line sample_line = Ok sample_metric /\
  exists r m x u,
    nth_error (split ";"%char sample_line) 3 = Some r /\
    nth_error (split ";"%char sample_line) 5 = Some m /\
    nth_error (split ";"%char sample_line) 6 = Some u /\
    (if String.eqb m "1.000000" then pyfloat r = Some x
     else exists a b, pyfloat r = Some a /\ pyfloat m = Some b /\ x = pymul a b) /\
    value sample_metric = (if String.eqb u "mA" then pymul x (pyint 1000)
                           else if String.eqb u "h" then pymul x (pyint 3600) else x).
Proof.
  assert (Hp : parse_line sample_line = Ok sample_metric) by (vm_compute; reflexivity).
  split; [exact Hp | exact (C1_multiplier_value sample_line sample_metric Hp)].
Defined.

(** C2 fails under a timestamp descriptor: unit mA, unitTag "unixtime". *)
Lemma C2_counterexample :
  parse_line (F := PrimFloat.float) ts_mA_line
  = Ok (mkMetric "12" LastSystemBackupTimestamp "F" 5000%float "x" "A" "unixtime") /\
  "unixtime" <> "A".
Proof. split; [vm_compute; reflexivity | discriminate]. Qed.

(** C4 fails: one empty line makes the whole body fail. *)
Lemma C4_counterexample :
  parse_body (F := PrimFloat.float) blank_body = Err IndexError.
Proof. vm_compute. reflexivity. Qed.

(** C5: interval 10, fire at 0, task done at 25: next fire at 30. *)
Lemma C5_witness :
  0 < 10 /\ raises_no_base_exception idle_task /\
  let '(r, next', _, _) := every_iter idle_task 10 (tt, 20, 25) 0 tt in
  r = None /\ 25 < next' /\ next' - 10 <= 25 /\
  exists k, next' = 0 + k * 10 /\ (0 <= 25 -> 1 <= k).
Proof.
  assert (Hn : raises_no_base_exception idle_task) by (intros e w; exact I).
  split; [reflexivity | split; [exact Hn |]].
  exact (C5_skip_ahead idle_task 10 tt 20 25 0 tt eq_refl Hn).
Defined.

(** C7 fails: two ticks answered 500 both run, both errors are logged,
    no exception leaves [every]. *)
Lemma C7_counterexample :
  let '(r, _, _, ev) :=
    every (do_repeat_task (F := PrimFloat.float) cfg) (repeat cfg) 0
          [(env_500, 0, 1); (env_500, 10, 11)] (mkWorker true 1) in
  r = None /\ length (filter is_sleep ev) = 2%nat /\
  length (filter is_log_exception ev) = 2%nat.
Proof. vm_compute. repeat split. Qed.

(** C7 (amended) on a 500 answer. *)
Lemma C7_witness :
  env_http env_500 = HttpResponse 500 "busy" /\ 500 <> 200 /\ repeat cfg <> 0 /\
  (let '(r, w', _) := do_repeat (F := PrimFloat.float) cfg env_500 (mkWorker true 1) in
   r = Err (AppError ("error fetching data: " ++ "busy")) /\ w' = mkWorker true 1) /\
  (let '(r, _, w', ev) :=
     every_iter (do_repeat_task (F := PrimFloat.float) cfg) (repeat cfg)
       (env_500, 0, 1) 0 (mkWorker true 1) in
   r = None /\ w' = mkWorker true 1 /\
   In (EvLogException "Problem while executing repetitive task.") ev).
Proof.
  assert (H1 : env_http env_500 = HttpResponse 500 "busy") by reflexivity.
  assert (H2 : 500 <> 200) by discriminate.
  assert (H3 : repeat cfg <> 0) by discriminate.
  split; [exact H1 | split; [exact H2 | split; [exact H3 |]]].
  exact (C7_non200_caught cfg env_500 (mkWorker true 1) 500 "busy" 0 1 0 H1 H2 H3).
Defined.

(** C8 on the sample row, broker not connected, reconnect succeeding. *)
Lemma C8_witness :
  env_http env_ok = HttpResponse 200 sample_line /\
  parse_body sample_line = Ok [sample_metric] /\
  mqtt_connected (mkWorker false 1) = false /\
  let '(r, w', ev) := do_repeat cfg env_ok (mkWorker false 1) in
  r = Ok tt /\ filter is_publish ev = [] /\
  In (EvLogWarning not_connected_warning) ev /\
  length (filter is_connect ev) = 1%nat /\
  w' = fst (mqtt_connect (F := PrimFloat.float) cfg (env_connect env_ok) (mkWorker false 1)).
Proof.
  assert (H1 : env_http env_ok = HttpResponse 200 sample_line) by reflexivity.
  assert (H2 : parse_body sample_line = Ok [sample_metric]) by (vm_compute; reflexivity).
  assert (H3 : mqtt_connected (mkWorker false 1) = false) by reflexivity.
  split; [exact H1 | split; [exact H2 | split; [exact H3 |]]].
  exact (C8_publish_skip cfg env_ok (mkWorker false 1) sample_line [sample_metric] H1 H2 H3).
Defined.

(** C9 fails for a plain unit under a timestamp descriptor. *)
Lemma C9_counterexample :
  normalize_units (F := PrimFloat.float) LastSystemBackupTimestamp "s" 1%float
  = ("s", "unixtime", 1%float) /\ "unixtime" <> "s".
Proof. split; [reflexivity | discriminate]. Qed.

End Checks.

(** ** Further properties of the code *)
Section StringFacts.

Lemma split_not_nil (c : ascii) (s : string) : split c s <> [].
Proof.
  destruct s as [|ch rest]; simpl; [discriminate|].
  destruct (Ascii.eqb ch c); [discriminate|].
  destruct (split c rest); discriminate.
Qed.

Lemma join_cons_string (sep ch : ascii) (w : string) (ws : list string) :
  join sep (String ch w :: ws) = String ch (join sep (w :: ws)).
Proof. destruct ws; reflexivity. Qed.

(** X1.  [';'.join(line.split(';')) == line], and no field holds ';'. *)
Theorem X1_split_join (c : ascii) (s : string) :
  join c (split c s) = s /\
  Forall (fun w => count_char c w = O) (split c s).
Proof.
  induction s as [|ch rest [IHj IHf]]; simpl; [split; [reflexivity | repeat constructor]|].
  destruct (Ascii.eqb ch c) eqn:Hc.
  - apply Ascii.eqb_eq in Hc. subst ch. split.
    + pose proof (split_not_nil c rest) as Hn.
      destruct (split c rest) as [|w ws]; [contradiction|].
      transitivity (String c (join c (w :: ws))); [reflexivity | rewrite IHj; reflexivity].
    + constructor; [reflexivity | assumption].
  - destruct (split c rest) as [|w ws] eqn:Hs; [destruct (split_not_nil c rest Hs)|].
    split.
    + rewrite join_cons_string, IHj. reflexivity.
    + inversion IHf; subst. constructor; [|assumption]. simpl. rewrite Hc. assumption.
Qed.

Lemma split_length (c : ascii) (s : string) :
  length (split c s) = S (count_char c s).
Proof.
  induction s as [|ch rest IH]; simpl; [reflexivity|].
  destruct (Ascii.eqb ch c); simpl; [rewrite IH; reflexivity|].
  pose proof (split_not_nil c rest) as Hn.
  destruct (split c rest) as [|w ws]; [contradiction|]. simpl in *. exact IH.
Qed.

(** X2.  [len(s.split(c))] is the number of [c] in [s] plus one. *)
Theorem X2_split_length (c : ascii) (s : string) :
  length (split c s) = S (count_char c s).
Proof. apply split_length. Qed.

Lemma split_app (c : ascii) (a b : string) :
  split c (a ++ String c b) = (split c a ++ split c b)%list.
Proof.
  induction a as [|ch a IH]; simpl.
  - rewrite Ascii.eqb_refl. reflexivity.
  - destruct (Ascii.eqb ch c); [rewrite IH; reflexivity|].
    rewrite IH. pose proof (split_not_nil c a) as Hn.
    destruct (split c a) as [|w ws]; [contradiction|]. reflexivity.
Qed.

Lemma drop_while_repeat (q : ascii) (n : nat) (l : list ascii) :
  drop_while_char q (List.repeat q n ++ l) = drop_while_char q l.
Proof. induction n as [|n IH]; simpl; [reflexivity|]. rewrite Ascii.eqb_refl. exact IH. Qed.

Lemma drop_while_stop (q : ascii) (l : list ascii) :
  hd_error l <> Some q -> drop_while_char q l = l.
Proof.
  destruct l as [|c l]; simpl; [reflexivity|]. intros Hc.
  destruct (Ascii.eqb_spec c q); [subst; contradiction | reflexivity].
Qed.

(** X3.  [d.strip('"')] removes every quote around [d] and nothing
    inside: for a [w] that neither starts nor ends with a quote,
    [('"' * n + w + '"' * m).strip('"') == w]. *)
Theorem X3_strip_quotes (n m : nat) (w : string) :
  hd_error (list_ascii_of_string w) <> Some "034"%char ->
  hd_error (rev (list_ascii_of_string w)) <> Some "034"%char ->
  strip "034"%char
    (string_of_list_ascii
       (List.repeat "034"%char n ++ list_ascii_of_string w ++ List.repeat "034"%char m)) = w.
Proof.
  intros Hh Ht. unfold strip.
  rewrite list_ascii_of_string_of_list_ascii, drop_while_repeat.
  destruct (list_ascii_of_string w) as [|a l] eqn:Hw.
  - simpl. rewrite <- (app_nil_r (List.repeat _ m)), drop_while_repeat. simpl.
    rewrite <- (string_of_list_ascii_of_string w), Hw. reflexivity.
  - rewrite (drop_while_stop _ ((a :: l) ++ _)) by exact Hh.
    rewrite rev_app_distr, rev_repeat, drop_while_repeat, drop_while_stop by exact Ht.
    rewrite rev_involutive, <- Hw, string_of_list_ascii_of_string. reflexivity.
Qed.

Lemma splitlines_aux_line (t : string) (l rest : string) (acc : list ascii) :
  (t = LF \/ t = CRLF) -> has_no_line_boundary l = true ->
  splitlines_aux (l ++ t ++ rest) acc
  = string_of_list_ascii (rev acc ++ list_ascii_of_string l) :: splitlines_aux rest [].
Proof.
  intros Ht. revert acc.
  induction l as [|ch l IH]; intros acc Hl; simpl.
  - rewrite app_nil_r. destruct Ht as [-> | ->]; reflexivity.
  - unfold has_no_line_boundary in Hl. simpl in Hl.
    apply andb_prop in Hl as [Hch Hl].
    assert (Hcr : Ascii.eqb ch "013"%char = false).
    { destruct (Ascii.eqb_spec ch "013"%char); [subst; discriminate|reflexivity]. }
    rewrite Hcr. destruct (is_line_boundary ch); [discriminate|].
    rewrite IH by exact Hl. simpl. rewrite <- app_assoc. reflexivity.
Qed.

Lemma splitlines_terminated (t : string) (lines : list string) :
  (t = LF \/ t = CRLF) ->
  Forall (fun l => has_no_line_boundary l = true) lines ->
  splitlines (terminated_lines t lines) = lines.
Proof.
  intros Ht Hall. unfold splitlines.
  induction Hall as [|l ls Hl Hls IH]; simpl; [reflexivity|].
  rewrite splitlines_aux_line by assumption. simpl.
  rewrite string_of_list_ascii_of_string, IH. reflexivity.
Qed.

(** X4.  A body made of lines free of line breaks, each ending with \n
    (or each with \r\n), splits back into exactly those lines, empty
    lines included. *)
Theorem X4_splitlines_roundtrip (t : string) (lines : list string) :
  (t = LF \/ t = CRLF) ->
  Forall (fun l => has_no_line_boundary l = true) lines ->
  splitlines (terminated_lines t lines) = lines.
Proof. apply splitlines_terminated. Qed.

Lemma has_no_line_boundary_rev (acc : list ascii) :
  forallb (fun c => negb (is_line_boundary c)) acc = true ->
  has_no_line_boundary (string_of_list_ascii (rev acc)) = true.
Proof.
  intros H. unfold has_no_line_boundary. rewrite list_ascii_of_string_of_list_ascii.
  rewrite forallb_forall in *. intros x Hx. apply H. apply in_rev. exact Hx.
Qed.

Lemma splitlines_aux_clean (n : nat) :
  forall (s : string) (acc : list ascii),
  (String.length s <= n)%nat ->
  forallb (fun c => negb (is_line_boundary c)) acc = true ->
  Forall (fun l => has_no_line_boundary l = true) (splitlines_aux s acc).
Proof.
  induction n as [|n IH]; intros s acc Hlen Hacc.
  - destruct s; simpl in Hlen; [|lia].
    destruct acc; [apply Forall_nil | apply Forall_cons; [apply has_no_line_boundary_rev; exact Hacc | apply Forall_nil]].
  - destruct s as [|c rest]; simpl.
    + destruct acc; [apply Forall_nil | apply Forall_cons; [apply has_no_line_boundary_rev; exact Hacc | apply Forall_nil]].
    + simpl in Hlen.
      assert (Hline : has_no_line_boundary (string_of_list_ascii (rev acc)) = true)
        by (apply has_no_line_boundary_rev; exact Hacc).
      destruct (Ascii.eqb c "013"%char).
      * destruct rest as [|c2 r2]; [constructor; [exact Hline | constructor]|].
        simpl in Hlen.
        destruct (Ascii.eqb c2 "010"%char);
          (constructor; [exact Hline | apply IH; [simpl; lia | reflexivity]]).
      * destruct (is_line_boundary c) eqn:Hb.
        -- constructor; [exact Hline | apply IH; [lia | reflexivity]].
        -- apply IH; [lia|]. simpl. rewrite Hb. exact Hacc.
Qed.

(** X5.  No line that [splitlines] returns holds a line-boundary
    character. *)
Theorem X5_splitlines_no_boundary (s : string) :
  Forall (fun l => has_no_line_boundary l = true) (splitlines s).
Proof. apply (splitlines_aux_clean (String.length s)); [lia | reflexivity]. Qed.

End StringFacts.

Section ParserExtra.
Context {F : Type} `{PyFloat F}.

Lemma getitem_app1 {A} (v w : list A) (i : nat) :
  (i < length v)%nat -> getitem (v ++ w) i = getitem v i.
Proof. intros Hi. unfold getitem. rewrite nth_error_app1 by exact Hi. reflexivity. Qed.

Lemma nth_error_lt {A} (v : list A) (i : nat) :
  (i < length v)%nat -> exists a, nth_error v i = Some a.
Proof.
  intros Hi. destruct (nth_error v i) eqn:He; [eauto|].
  apply nth_error_None in He. lia.
Qed.

(** X6.  A line parses exactly when it has at least six ';' (seven
    fields) and [float(v[3])] succeeds, and also [float(v[5])] when
    [v[5]] is not "1.000000". *)
Theorem X6_parse_line_succeeds (line : string) :
  (exists met : metric F, parse_line line = Ok met) <->
  ((6 <= count_char ";"%char line)%nat /\
   exists r m a,
     nth_error (split ";"%char line) 3 = Some r /\
     nth_error (split ";"%char line) 5 = Some m /\
     pyfloat r = Some a /\
     (m <> "1.000000" -> exists b, pyfloat m = Some b)).
Proof.
  pose proof (split_length ";"%char line) as Hlen.
  split.
  - intros [met Hp].
    destruct (parse_line_Ok line met Hp) as (r & m & x & u & Hr & Hm & Hx & Hu & _ & _).
    split.
    + assert (Hs : nth_error (split ";"%char line) 6 <> None) by congruence.
      apply nth_error_Some in Hs. lia.
    + apply scale_value_Ok in Hx.
      destruct (String.eqb_spec m "1.000000") as [Heq|Hne].
      * exists r, m, x. repeat split; try assumption. intros Hne. contradiction.
      * destruct Hx as (a & b & Ha & Hb & _).
        exists r, m, a. repeat split; try assumption. intros _. eauto.
  - intros [Hc (r & m & a & Hr & Hm & Ha & Hb)].
    destruct (nth_error_lt (split ";"%char line) 0 ltac:(lia)) as [f0 H0].
    destruct (nth_error_lt (split ";"%char line) 1 ltac:(lia)) as [f1 H1].
    destruct (nth_error_lt (split ";"%char line) 2 ltac:(lia)) as [f2 H2].
    destruct (nth_error_lt (split ";"%char line) 4 ltac:(lia)) as [f4 H4].
    destruct (nth_error_lt (split ";"%char line) 6 ltac:(lia)) as [f6 H6].
    assert (Hx : exists x, scale_value r m = Ok x).
    { unfold scale_value, of_float. rewrite Ha.
      destruct (String.eqb_spec m "1.000000") as [Heq|Hne]; simpl; [eauto|].
      destruct (Hb Hne) as [b ->]. simpl. eauto. }
    destruct Hx as [x Hx].
    unfold parse_line.
    rewrite (getitem_Some _ _ _ Hr), (getitem_Some _ _ _ Hm). simpl. rewrite Hx. simpl.
    rewrite (getitem_Some _ _ _ H6), (getitem_Some _ _ _ H1). simpl.
    destruct (normalize_units f1 f6 x) as [[u' z'] x'].
    rewrite (getitem_Some _ _ _ H0), (getitem_Some _ _ _ H2), (getitem_Some _ _ _ H4).
    simpl. eauto.
Qed.

(** X7.  Fields after the seventh are never read: appending ';' and
    anything to a line with seven or more fields leaves its parse as it
    was (the same metric, or the same exception). *)
Theorem X7_trailing_fields_ignored (line rest : string) :
  (6 <= count_char ";"%char line)%nat ->
  parse_line (F := F) (line ++ String ";"%char rest) = parse_line line.
Proof.
  intros Hc. pose proof (split_length ";"%char line) as Hlen.
  unfold parse_line. rewrite split_app.
  rewrite !getitem_app1 by lia. reflexivity.
Qed.

(** X8.  A parsed metric takes [id], [descriptor] and [type] from fields
    0, 1 and 2 as they are, and [description] from field 4 with the
    surrounding quotes stripped. *)
Theorem X8_metric_fields (line : string) (met : metric F) :
  parse_line line = Ok met ->
  nth_error (split ";"%char line) 0 = Some (id met) /\
  nth_error (split ";"%char line) 1 = Some (descriptor met) /\
  nth_error (split ";"%char line) 2 = Some (type_ met) /\
  exists d, nth_error (split ";"%char line) 4 = Some d /\
            description met = strip "034"%char d.
Proof.
  unfold parse_line. intros Hp.
  apply bind_Ok in Hp as [r [_ Hp]].
  apply bind_Ok in Hp as [m [_ Hp]].
  apply bind_Ok in Hp as [x [_ Hp]].
  apply bind_Ok in Hp as [u [_ Hp]].
  apply bind_Ok in Hp as [d1 [Hd1 Hp]].
  destruct (normalize_units d1 u x) as [[u' z'] x'].
  apply bind_Ok in Hp as [i [Hi Hp]].
  apply bind_Ok in Hp as [t [Ht Hp]].
  apply bind_Ok in Hp as [ds [Hds Hp]].
  injection Hp as <-. cbn [id descriptor type_ description].
  apply getitem_Ok in Hd1, Hi, Ht, Hds.
  repeat split; try assumption. eauto.
Qed.

(** X9.  A body of rows free of line breaks, each ending with \n (or each
    with \r\n), each parsing on its own, parses to their metrics in row
    order: one metric per row. *)
Theorem X9_parse_body_rows (t : string) (rows : list string) (ms : list (metric F)) :
  (t = LF \/ t = CRLF) ->
  Forall (fun l => has_no_line_boundary l = true) rows ->
  Forall2 (fun l m => parse_line l = Ok m) rows ms ->
  parse_body (terminated_lines t rows) = Ok ms /\ length ms = length rows.
Proof.
  intros Ht Hrows Hms. unfold parse_body.
  rewrite splitlines_terminated by assumption.
  split; [apply parse_lines_Ok; exact Hms|].
  symmetry. apply (Forall2_length Hms).
Qed.

End ParserExtra.

Section WorkerExtra.
Context {F : Type} `{PyFloat F}.
Variable config : config_t.

(* Closes a branch of [do_repeat] that publishes nothing. *)
Local Ltac no_publish :=
  simpl; split; [reflexivity|]; split; [simpl; lia|]; split; [auto|];
  let Hin := fresh "Hin" in
  intros ? ? Hin; simpl in Hin;
  repeat (destruct Hin as [Hin|Hin]; [discriminate|]); contradiction.

(** X10.  Every call of [do_repeat] starts by logging and doing one GET
    of [url]; it publishes at most once, never both publishes and
    reconnects, and what it publishes is the parse of a 200 body, sent to
    the configured topic while the flag is true. *)
Theorem X10_cycle_shape (env : cycle_env) (w : worker) :
  let '(_, _, ev) := do_repeat (F := F) config env w in
  firstn 2 ev = [EvLogInfo ("fetch all values from " ++ url config); EvHttpGet (url config)] /\
  (length (filter is_publish ev) <= 1)%nat /\
  (filter is_publish ev = [] \/ filter is_connect ev = []) /\
  (forall t p, In (EvPublish t p) ev ->
     t = mqtt_topic config /\ mqtt_connected w = true /\
     exists text, env_http env = HttpResponse 200 text /\ parse_body text = Ok p).
Proof.
  unfold do_repeat.
  destruct (env_http env) as [|e|code text] eqn:Hh; [no_publish | no_publish |].
  destruct (Z.eqb_spec code 200) as [->|Hc]; [|no_publish].
  destruct (parse_lines (splitlines text)) as [ms|e] eqn:Hp; [|no_publish].
  destruct (mqtt_connected w) eqn:Hw.
  - destruct (env_publish env); simpl;
      (split; [reflexivity|]; split; [simpl; lia|]; split; [right; reflexivity|]);
      intros t p Hin; simpl in Hin;
      repeat (destruct Hin as [Hin|Hin]; [try discriminate|]); try contradiction;
      injection Hin as <- <-; (split; [reflexivity | split; [reflexivity|]]);
      exists text; (split; [reflexivity | exact Hp]).
  - unfold mqtt_connect. destruct (env_connect env); no_publish.
Qed.

End WorkerExtra.

Section WorkerExtra2.
Context {F : Type} `{PyFloat F}.
Variable config : config_t.

(** X11.  The failure paths of [do_repeat]: a [ConnectionError] is logged
    and the call returns normally; any other exception of the GET, and an
    exception of the parse, leave [do_repeat] unchanged before any publish
    or connect; an exception of [publish] leaves it after the one publish.
    In all of them [self] is unchanged. *)
Theorem X11_failure_paths (env : cycle_env) (w : worker) :
  let '(r, w', ev) := do_repeat (F := F) config env w in
  (env_http env = HttpConnectionError ->
     r = Ok tt /\ w' = w /\ filter is_publish ev = [] /\ filter is_connect ev = [] /\
     In (EvLogError "received error during http fetch") ev) /\
  (forall e, env_http env = HttpRaise e ->
     r = Err e /\ w' = w /\ filter is_publish ev = [] /\ filter is_connect ev = []) /\
  (forall text e, env_http env = HttpResponse 200 text -> parse_body (F := F) text = Err e ->
     r = Err e /\ w' = w /\ filter is_publish ev = [] /\ filter is_connect ev = []) /\
  (forall text ms e, env_http env = HttpResponse 200 text -> parse_body text = Ok ms ->
     mqtt_connected w = true -> env_publish env = Some e ->
     r = Err e /\ w' = w /\ filter is_publish ev = [EvPublish (mqtt_topic config) ms] /\
     filter is_connect ev = []).
Proof.
  unfold do_repeat, parse_body.
  destruct (env_http env) as [|e0|code text0] eqn:Hh;
    [| | destruct (Z.eqb_spec code 200) as [->|Hc];
         [destruct (parse_lines (splitlines text0)) as [ms0|e0] eqn:Hp;
            [destruct (mqtt_connected w) eqn:Hw;
               [destruct (env_publish env) as [e1|] eqn:Hpub
               | unfold mqtt_connect; destruct (env_connect env)] |] |]];
    simpl;
    (split; [intros H1 | split; [intros ? H1 | split; [intros ? ? H1 H2 | intros ? ? ? H1 H2 H3 H4]]]);
    try discriminate;
    try (injection H1 as <-); try (injection H1 as ? <-); subst;
    try congruence;
    try (rewrite Hp in H2; injection H2 as <-);
    try (rewrite H4 in Hpub; injection Hpub as <-);
    repeat split; simpl; auto 6; congruence.
Qed.

End WorkerExtra2.

Section EveryExtra.
Context {F W E : Type}.
Variable task : E -> W -> option py_exc * W * list (event F).
Variable delay : Z.



(** X13.  With [delay > 0] and a task raising only [Exception]s, the loop
    keeps [next_time] on the grid [t0 + k * delay] and, after the last
    tick, strictly after that tick's clock reading. *)
Theorem X13_every_loop_aligned (ticks : list (E * Z * Z)) (n : Z) (w : W) :
  0 < delay -> raises_no_base_exception task ->
  let '(r, n', _, _) := every_loop task delay ticks n w in
  r = None /\ (exists k, n' = n + k * delay) /\
  (forall d, ticks <> [] -> snd (last ticks d) < n').
Proof.
  intros Hd Hnb. revert n w. induction ticks as [|[[env ts] ta] ticks IH]; intros n w.
  - simpl. split; [reflexivity | split; [exists 0; ring | intros d Hne; contradiction]].
  - simpl. unfold every_iter.
    specialize (Hnb env w).
    destruct (every_advance_pos delay n ta Hd) as (n1 & Ha & Hlt & _ & k1 & Hk1 & _).
    destruct (task env w) as [[r w1] evt].
    assert (Hstep : forall ev1,
      let '(r', n'', _, _) :=
        let '(r0, n0, w0, ev0) := every_loop task delay ticks n1 w1 in
        (r0, n0, w0, (ev1 ++ ev0)%list) in
      r' = None /\ (exists k, n'' = n + k * delay) /\
      (forall d, (env, ts, ta) :: ticks <> [] ->
         snd (last ((env, ts, ta) :: ticks) d) < n'')).
    { intros ev1. specialize (IH n1 w1).
      destruct (every_loop task delay ticks n1 w1) as [[[r0 n0] w0] ev0] eqn:Hl.
      destruct IH as (Hr0 & (k0 & Hk0) & Hlast).
      split; [exact Hr0|]. split; [exists (k1 + k0); subst; ring|].
      intros d _. destruct ticks as [|t' ticks'].
      - simpl in Hl. injection Hl as _ <- _ _. simpl. lia.
      - specialize (Hlast d ltac:(discriminate)). exact Hlast. }
    destruct r as [[e|b]|]; [|contradiction|]; rewrite Ha; apply Hstep.
Qed.


End EveryExtra.

Section InitExtra.
Context {F : Type} `{PyFloat F}.
Variable config : config_t.


End InitExtra.

(** X16.  Started as a script, the collector always logs to the console
    and never to syslog, tty or not, on every platform; the level is
    DEBUG with [-d] and INFO without. *)
Theorem X16_main_logging (args : args_t) (isatty : bool) (platform : string) :
  main_logging args isatty platform = Console (if debug args then DEBUG else INFO).
Proof. unfold main_logging, parse_arguments, set_up_logging. destruct (debug args), isatty; reflexivity. Qed.

(** ** Concrete instances of the further properties *)

Module ExtraChecks.
Import Samples.

Definition quoted_word : string := "AC".

Lemma X3_witness :
  hd_error (list_ascii_of_string quoted_word) <> Some "034"%char /\
  hd_error (rev (list_ascii_of_string quoted_word)) <> Some "034"%char /\
  strip "034"%char (string_of_list_ascii
    (List.repeat "034"%char 2 ++ list_ascii_of_string quoted_word ++
     List.repeat "034"%char 1)%list) = quoted_word.
Proof.
  assert (H1 : hd_error (list_ascii_of_string quoted_word) <> Some "034"%char)
    by (vm_compute; discriminate).
  assert (H2 : hd_error (rev (list_ascii_of_string quoted_word)) <> Some "034"%char)
    by (vm_compute; discriminate).
  split; [exact H1 | split; [exact H2 | exact (X3_strip_quotes 2 1 quoted_word H1 H2)]].
Defined.

Definition three_lines : list string := [sample_line; EmptyString; "x"].

Lemma X4_witness :
  (CRLF = LF \/ CRLF = CRLF) /\
  Forall (fun l => has_no_line_boundary l = true) three_lines /\
  splitlines (terminated_lines CRLF three_lines) = three_lines.
Proof.
  assert (H1 : CRLF = LF \/ CRLF = CRLF) by (right; reflexivity).
  assert (H2 : Forall (fun l => has_no_line_boundary l = true) three_lines)
    by (apply Forall_cons; [vm_compute; reflexivity|];
        apply Forall_cons; [vm_compute; reflexivity|];
        apply Forall_cons; [vm_compute; reflexivity|]; apply Forall_nil).
  split; [exact H1 | split; [exact H2 | exact (X4_splitlines_roundtrip CRLF three_lines H1 H2)]].
Defined.

Lemma X7_witness :
  (6 <= count_char ";" sample_line)%nat /\
  parse_line (F := PrimFloat.float) (sample_line ++ String ";" "extra") =
    parse_line sample_line.
Proof.
  assert (H1 : (6 <= count_char ";" sample_line)%nat)
    by (apply Nat.leb_le; vm_compute; reflexivity).
  split; [exact H1 | exact (X7_trailing_fields_ignored sample_line "extra" H1)].
Defined.

Lemma X8_witness :
  parse_line sample_line = Ok sample_metric /\
  nth_error (split ";" sample_line) 0 = Some (id sample_metric) /\
  nth_error (split ";" sample_line) 1 = Some (descriptor sample_metric) /\
  nth_error (split ";" sample_line) 2 = Some (type_ sample_metric) /\
  exists d, nth_error (split ";" sample_line) 4 = Some d /\
    description sample_metric = strip "034"%char d.
Proof.
  assert (H1 : parse_line sample_line = Ok sample_metric) by (vm_compute; reflexivity).
  split; [exact H1 | exact (X8_metric_fields sample_line sample_metric H1)].
Defined.

Definition two_rows : list string := [sample_line; sample_line].
Definition two_metrics : list (metric PrimFloat.float) := [sample_metric; sample_metric].

Lemma X9_witness :
  (LF = LF \/ LF = CRLF) /\
  Forall (fun l => has_no_line_boundary l = true) two_rows /\
  Forall2 (fun l m => parse_line l = Ok m) two_rows two_metrics /\
  parse_body (terminated_lines LF two_rows) = Ok two_metrics /\
  length two_metrics = length two_rows.
Proof.
  assert (H1 : LF = LF \/ LF = CRLF) by (left; reflexivity).
  assert (H2 : Forall (fun l => has_no_line_boundary l = true) two_rows)
    by (apply Forall_cons; [vm_compute; reflexivity|];
        apply Forall_cons; [vm_compute; reflexivity|]; apply Forall_nil).
  assert (H3 : Forall2 (fun l m => parse_line l = Ok m) two_rows two_metrics)
    by (apply Forall2_cons; [vm_compute; reflexivity|];
        apply Forall2_cons; [vm_compute; reflexivity|]; apply Forall2_nil).
  split; [exact H1 | split; [exact H2 | split; [exact H3 |
    exact (X9_parse_body_rows LF two_rows two_metrics H1 H2 H3)]]].
Defined.

Definition late_ticks : list (Datatypes.unit * Z * Z) := [(tt, 0, 3); (tt, 10, 37)].

Lemma X13_witness :
  0 < 10 /\ raises_no_base_exception idle_task /\
  let '(r, n', _, _) := every_loop idle_task 10 late_ticks 0 tt in
  r = None /\ (exists k, n' = 0 + k * 10) /\
  (forall d, late_ticks <> [] -> snd (last late_ticks d) < n').
Proof.
  assert (H1 : 0 < 10) by lia.
  assert (H2 : raises_no_base_exception idle_task) by (intros e w; exact I).
  split; [exact H1 | split; [exact H2 |
    exact (X13_every_loop_aligned idle_task 10 late_ticks 0 tt H1 H2)]].
Defined.


End ExtraChecks.
